(** * Shallow embedding of [src/frontend/src-tauri/src/main.rs] (hamba desktop shell)

    The program is a Tauri bootstrap: it registers the shell plugin, installs
    a [setup] closure and runs the application.  The closure's body is split
    by [cfg(debug_assertions)]: a release build resolves the ["backend"]
    sidecar, spawns it and hands the child to [App::manage]; a debug build
    prints a message.  The closure returns [Ok(())].

    Model.
    - The compile-time flag [debug_assertions] is a [BuildMode].
    - The host (bundled files, operating system) is an [Env]: whether the
      sidecar command can be created and what [spawn] returns.  It is the
      only runtime input.
    - Observable effects are an ordered trace of [Event]s; Tauri's managed
      state is a store keyed by the Rust type name of the value, which
      [manage] only fills when the key is free (as [Manager::manage] does).
    - [expect] on an error unwinds: the computation stops with [Panicked].
    - [println!] panics when writing to stdout fails (std's [print_to]).
    - Framework internals (plugin initialisation and configuration in
      [Builder::build], window creation, the runtime itself) are outside the
      repository and are taken to succeed. *)

From Stdlib Require Import String List Arith Lia.
Import ListNotations.
Open Scope string_scope.

(** ** Data *)

Inductive BuildMode := Debug | Release.

(** [CommandChild] from [tauri_plugin_shell::process]. *)
Record CommandChild := { child_pid : nat }.

(** The [Receiver<CommandEvent>] half returned by [spawn]. *)
Record Receiver := { rx_id : nat }.

(** The sidecar [Command] built by [ShellExt::sidecar]. *)
Record Command := { cmd_program : string }.

(** Values stored in Tauri's managed state. *)
Inductive Managed :=
| MShell                        (* the shell plugin's own state *)
| MChild (c : CommandChild).

Definition key_shell := "tauri_plugin_shell::Shell".
Definition key_child := "tauri_plugin_shell::process::CommandChild".

Definition managed_key (m : Managed) : string :=
  match m with MShell => key_shell | MChild _ => key_child end.

Inductive Event :=
| EvPluginInit (name : string)
| EvResolveSidecar (name : string)
| EvSpawn (program : string)
| EvManage (key : string)
| EvPrintln (msg : string)
| EvRecv (rx : nat)
| EvEventLoopStart
| EvExit.

(** The host: can the sidecar be resolved, and does the OS create the process
    (returning receiver id and pid) or refuse it. *)
Record Env := {
  env_resolve_ok : bool;
  env_spawn : option (nat * nat);
  env_run_events : list nat;  (* window / system events seen by the loop *)
  env_stdout_error : option string  (* error of a write to stdout, if any *)
}.

Record State := {
  st_managed : list (string * Managed);
  st_trace : list Event
}.

Definition init_state : State := {| st_managed := []; st_trace := [] |}.

(** ** A state monad with unwinding panics *)

Inductive Res (A : Type) :=
| Done (a : A)
| Panicked (msg : string).
Arguments Done {A} a.
Arguments Panicked {A} msg.

Definition M (A : Type) := Env -> State -> Res A * State.

Definition ret {A} (a : A) : M A := fun _ s => (Done a, s).

Definition bind {A B} (m : M A) (k : A -> M B) : M B :=
  fun e s =>
    match m e s with
    | (Done a, s') => k a e s'
    | (Panicked msg, s') => (Panicked msg, s')
    end.

Notation "x <- m ;; k" := (bind m (fun x => k))
  (at level 61, m at next level, right associativity).
Notation "m ;;; k" := (bind m (fun _ => k))
  (at level 61, right associativity).

Definition emit (ev : Event) : M unit :=
  fun _ s => (Done tt, {| st_managed := st_managed s;
                         st_trace := st_trace s ++ [ev] |}).

Definition panic {A} (msg : string) : M A := fun _ s => (Panicked msg, s).

Definition ask : M Env := fun e s => (Done e, s).

(** Rust's [Result] and [Result::expect]. *)
Inductive result (T E : Type) :=
| Ok (t : T)
| Err (e : E).
Arguments Ok {T E} t.
Arguments Err {T E} e.

Definition expect {T E} (r : result T E) (msg : string) : M T :=
  match r with Ok t => ret t | Err _ => panic msg end.

(** ** Tauri / shell-plugin operations used by [main] *)

Fixpoint lookup_key (k : string) (l : list (string * Managed)) : option Managed :=
  match l with
  | [] => None
  | (k', v) :: l' => if String.eqb k k' then Some v else lookup_key k l'
  end.

(** [Manager::manage]: stores the value unless its type is already managed;
    returns whether it was stored. *)
Definition manage (v : Managed) : M bool :=
  fun _ s =>
    let k := managed_key v in
    match lookup_key k (st_managed s) with
    | Some _ => (Done false, s)
    | None =>
        (Done true, {| st_managed := st_managed s ++ [(k, v)];
                       st_trace := st_trace s ++ [EvManage k] |})
    end.

(** [tauri_plugin_shell::init()] registered through [.plugin(..)]. *)
Definition plugin_shell_init : M unit :=
  emit (EvPluginInit "shell") ;;; _ <- manage MShell ;; ret tt.

Inductive ShellError := ResolutionError | SpawnError.

(** [app.shell().sidecar(name)] *)
Definition sidecar (name : string) : M (result Command ShellError) :=
  e <- ask ;;
  emit (EvResolveSidecar name) ;;;
  if env_resolve_ok e then ret (Ok {| cmd_program := name |})
  else ret (Err ResolutionError).

(** [command.spawn()] *)
Definition spawn (c : Command) : M (result (Receiver * CommandChild) ShellError) :=
  e <- ask ;;
  emit (EvSpawn (cmd_program c)) ;;;
  match env_spawn e with
  | Some (rx, pid) => ret (Ok ({| rx_id := rx |}, {| child_pid := pid |}))
  | None => ret (Err SpawnError)
  end.

(** [println!]: the write is attempted; when it fails, std panics with
    ["failed printing to stdout: <error>"]. *)
Definition println (msg : string) : M unit :=
  e <- ask ;;
  emit (EvPrintln msg) ;;;
  match env_stdout_error e with
  | None => ret tt
  | Some err => panic ("failed printing to stdout: " ++ err)
  end.

(** ** The program *)

Definition dev_msg :=
  "Dev mode: Run backend separately with 'cd backend && bun run dev'".

(** The [setup] closure; [debug_assertions] selects the compiled block. *)
Definition setup (mode : BuildMode) : M (result unit string) :=
  match mode with
  | Release =>
      sidecar_r <- sidecar "backend" ;;
      cmd <- expect sidecar_r "Failed to create sidecar command" ;;
      spawn_r <- spawn cmd ;;
      p <- expect spawn_r "Failed to spawn backend sidecar" ;;
      let '(_rx, child) := p in
      _ <- manage (MChild child) ;;
      ret (Ok tt)
  | Debug =>
      println dev_msg ;;;
      ret (Ok tt)
  end.

(** The application registers no command or event handlers: the event loop
    leaves the managed state as it finds it. *)
Definition handle_run_event (s : State) (_ : nat) : State := s.

Definition event_loop : M unit :=
  e <- ask ;;
  emit EvEventLoopStart ;;;
  (fun _ s => (Done tt, fold_left handle_run_event (env_run_events e) s)) ;;;
  emit EvExit.

(** [Builder::run] (Tauri 2): [build] initialises the plugins, then the
    runtime calls [setup] before any application event is handled; an [Err]
    from [setup] makes Tauri panic with ["Failed to setup app: <error>"].
    [build]'s own errors (plugin initialisation or configuration) are
    framework failures the model takes not to happen, so [run] returns
    [Ok] here. *)
Definition run (setup_fn : M (result unit string)) : M (result unit string) :=
  plugin_shell_init ;;;
  r <- setup_fn ;;
  match r with
  | Ok _ => event_loop ;;; ret (Ok tt)
  | Err msg => panic ("Failed to setup app: " ++ msg)
  end.

Definition main (mode : BuildMode) : M unit :=
  r <- run (setup mode) ;;
  expect r "error while running tauri application".

Definition run_main (mode : BuildMode) (e : Env) : Res unit * State :=
  main mode e init_state.

Definition main_trace (mode : BuildMode) (e : Env) : list Event :=
  st_trace (snd (run_main mode e)).

(** ** Trace observations *)

Definition is_spawn (ev : Event) : bool :=
  match ev with EvSpawn _ => true | _ => false end.
Definition is_println (ev : Event) : bool :=
  match ev with EvPrintln _ => true | _ => false end.
Definition is_recv (ev : Event) : bool :=
  match ev with EvRecv _ => true | _ => false end.
Definition is_loop_start (ev : Event) : bool :=
  match ev with EvEventLoopStart => true | _ => false end.

Definition count_ev (p : Event -> bool) (l : list Event) : nat :=
  length (filter p l).

Definition count_spawn_of (name : string) (l : list Event) : nat :=
  count_ev (fun ev => match ev with EvSpawn n => String.eqb n name | _ => false end) l.

Definition reached_loop (mode : BuildMode) (e : Env) : bool :=
  existsb is_loop_start (main_trace mode e).

Definition panicked (mode : BuildMode) (e : Env) : bool :=
  match fst (run_main mode e) with Panicked _ => true | Done _ => false end.

(** The result of the [setup] closure alone, run after plugin registration. *)
Definition setup_outcome (mode : BuildMode) (e : Env) : Res (result unit string) :=
  fst ((plugin_shell_init ;;; setup mode) e init_state).

Definition env_ok : Env :=
  {| env_resolve_ok := true; env_spawn := Some (7, 4242); env_run_events := [1; 2];
     env_stdout_error := None |}.

Example main_release_ok_trace :
  main_trace Release env_ok =
  [EvPluginInit "shell"; EvManage key_shell; EvResolveSidecar "backend";
   EvSpawn "backend"; EvManage key_child; EvEventLoopStart; EvExit].
Proof. reflexivity. Qed.

(** ** Lemmas about the model *)

Lemma fold_handle_run_event (l : list nat) (s : State) :
  fold_left handle_run_event l s = s.
Proof. induction l as [|x l IH]; simpl; [reflexivity | exact IH]. Qed.

Ltac run_env e :=
  destruct e as [[|] [[? ?]|] ? [?|]];
  unfold main_trace, run_main, setup_outcome, reached_loop, panicked in *;
  cbn in *; repeat rewrite fold_handle_run_event in *; cbn in *.

(** The state in which the event loop starts: after plugins and [setup]. *)
Definition state_after_setup (mode : BuildMode) (e : Env) : State :=
  snd ((plugin_shell_init ;;; setup mode) e init_state).

Definition release_branch_ran (tr : list Event) : bool :=
  existsb (fun ev => match ev with EvResolveSidecar _ => true | _ => false end) tr.

Definition debug_branch_ran (tr : list Event) : bool :=
  existsb is_println tr.

Definition is_release (mode : BuildMode) : bool :=
  match mode with Release => true | Debug => false end.

(** ** Claims *)

Definition env_no_sidecar : Env :=
  {| env_resolve_ok := false; env_spawn := Some (7, 4242); env_run_events := [];
     env_stdout_error := None |}.

(** C1 (as stated fails): when the sidecar cannot be resolved, the release
    startup makes no spawn attempt at all. *)
Lemma release_spawn_once_counterexample :
  ~ (count_spawn_of "backend" (main_trace Release env_no_sidecar) = 1).
Proof. vm_compute. discriminate. Qed.

(** C1 (amended): in a release build the number of spawn attempts of
    ["backend"] is one when the sidecar command resolves and zero when it does
    not; no other program is spawned; whenever the event loop starts, exactly
    one spawn of ["backend"] has already happened. *)
Theorem release_spawns_backend_once_before_loop (e : Env) :
  count_spawn_of "backend" (main_trace Release e) =
    (if env_resolve_ok e then 1 else 0) /\
  count_ev is_spawn (main_trace Release e) =
    count_spawn_of "backend" (main_trace Release e) /\
  (forall i, nth_error (main_trace Release e) i = Some EvEventLoopStart ->
     count_spawn_of "backend" (firstn i (main_trace Release e)) = 1).
Proof.
  run_env e; split; try reflexivity; split; try reflexivity; intros i Hi;
    do 7 (destruct i as [|i]; cbn in Hi; try discriminate Hi; try reflexivity);
    destruct i; discriminate Hi.
Qed.


(** C3: in a release build, when the sidecar cannot be resolved, startup
    panics with the sidecar message and the event loop never starts. *)
Theorem release_resolution_error_fatal (e : Env)
  (Hres : env_resolve_ok e = false) :
  fst (run_main Release e) = Panicked "Failed to create sidecar command" /\
  reached_loop Release e = false.
Proof. run_env e; try discriminate Hres; split; reflexivity. Qed.

Lemma release_resolution_error_fatal_witness :
  env_resolve_ok env_no_sidecar = false /\
  fst (run_main Release env_no_sidecar) = Panicked "Failed to create sidecar command" /\
  reached_loop Release env_no_sidecar = false.
Proof.
  split; [reflexivity | apply release_resolution_error_fatal; reflexivity].
Defined.

Definition env_spawn_refused : Env :=
  {| env_resolve_ok := true; env_spawn := None; env_run_events := [];
     env_stdout_error := None |}.

(** C4: in a release build, when the OS refuses to create the child, startup
    panics with the spawn message and the event loop never starts. *)
Theorem release_spawn_error_fatal (e : Env)
  (Hres : env_resolve_ok e = true) (Hsp : env_spawn e = None) :
  fst (run_main Release e) = Panicked "Failed to spawn backend sidecar" /\
  reached_loop Release e = false.
Proof. run_env e; try discriminate Hres; try discriminate Hsp; split; reflexivity. Qed.

Lemma release_spawn_error_fatal_witness :
  env_resolve_ok env_spawn_refused = true /\ env_spawn env_spawn_refused = None /\
  fst (run_main Release env_spawn_refused) = Panicked "Failed to spawn backend sidecar" /\
  reached_loop Release env_spawn_refused = false.
Proof.
  split; [reflexivity | split; [reflexivity |]].
  apply release_spawn_error_fatal; reflexivity.
Defined.

(** C5: after a successful release spawn the child is in the managed state
    when the event loop starts, stays there after every prefix of the events
    the loop handles, and is still there when the run ends normally. *)
Theorem release_child_managed_for_run (e : Env) (rx pid : nat)
  (Hres : env_resolve_ok e = true) (Hsp : env_spawn e = Some (rx, pid)) :
  lookup_key key_child (st_managed (state_after_setup Release e)) =
    Some (MChild {| child_pid := pid |}) /\
  (forall n, lookup_key key_child
       (st_managed (fold_left handle_run_event (firstn n (env_run_events e))
                      (state_after_setup Release e))) =
     Some (MChild {| child_pid := pid |})) /\
  fst (run_main Release e) = Done tt /\
  lookup_key key_child (st_managed (snd (run_main Release e))) =
    Some (MChild {| child_pid := pid |}).
Proof.
  unfold state_after_setup.
  run_env e; try discriminate Hres; try discriminate Hsp;
    injection Hsp as -> ->;
    (split; [reflexivity | split; [intros n; rewrite fold_handle_run_event; reflexivity |]]);
    split; reflexivity.
Qed.

Lemma release_child_managed_for_run_witness :
  env_resolve_ok env_ok = true /\ env_spawn env_ok = Some (7, 4242) /\
  lookup_key key_child (st_managed (snd (run_main Release env_ok))) =
    Some (MChild {| child_pid := 4242 |}).
Proof.
  split; [reflexivity | split; [reflexivity |]].
  apply (release_child_managed_for_run env_ok 7 4242); reflexivity.
Defined.

(** C6: in either build, at most one process is spawned during a run. *)
Theorem at_most_one_spawn (mode : BuildMode) (e : Env) :
  count_ev is_spawn (main_trace mode e) <= 1.
Proof. destruct mode; run_env e; lia. Qed.

(** C7: the release branch (sidecar resolution) and the debug branch (the
    printed message) are mutually exclusive, exactly one of them runs, and
    which one depends only on the build mode, for every host environment. *)
Theorem branch_selected_by_build_mode (mode : BuildMode) (e : Env) :
  release_branch_ran (main_trace mode e) = negb (debug_branch_ran (main_trace mode e)) /\
  release_branch_ran (main_trace mode e) = is_release mode.
Proof. destruct mode; run_env e; split; reflexivity. Qed.

(** C8: in a release build the receiver returned by [spawn] is never read. *)
Theorem release_receiver_never_read (e : Env) :
  count_ev is_recv (main_trace Release e) = 0.
Proof. run_env e; reflexivity. Qed.

(** The stdout error a debug startup hits when stdout is a full device. *)
Definition env_stdout_full : Env :=
  {| env_resolve_ok := true; env_spawn := None; env_run_events := [];
     env_stdout_error := Some "No space left on device (os error 28)" |}.

(** The outcome of [println!] for a host: completes, or std's panic. *)
Definition println_outcome {A} (a : A) (e : Env) : Res A :=
  match env_stdout_error e with
  | None => Done a
  | Some err => Panicked ("failed printing to stdout: " ++ err)
  end.

(** C9 (as stated fails): when writing to stdout fails, the [println!] of the
    debug branch panics, so debug setup fails and the event loop never starts. *)
Lemma debug_setup_stdout_failure_counterexample :
  setup_outcome Debug env_stdout_full <> Done (Ok tt) /\
  reached_loop Debug env_stdout_full = false.
Proof. split; [vm_compute; discriminate | reflexivity]. Qed.

(** C9 (amended): in a debug build [setup] never returns an error value and
    has no failure of its own besides [println!]: it returns [Ok(())] and the
    event loop starts exactly when the write to stdout succeeds; when that
    write fails, [println!] panics and startup ends before the loop. *)
Theorem debug_setup_never_errs (e : Env) :
  setup_outcome Debug e = println_outcome (Ok tt) e /\
  fst (run_main Debug e) = println_outcome tt e /\
  reached_loop Debug e =
    match env_stdout_error e with None => true | Some _ => false end.
Proof. unfold println_outcome; run_env e; repeat split. Qed.

(** C10: [setup] never returns [Err]: it returns [Ok(())] or panics, and a
    panic in [setup] is the outcome of the whole program.  In a release build
    it returns [Ok(())] exactly when resolution and spawning succeed (so each
    of their failures is a panic); in a debug build exactly when the write to
    stdout succeeds. *)
Theorem setup_never_returns_err (mode : BuildMode) (e : Env) :
  (forall err, setup_outcome mode e <> Done (Err err)) /\
  (setup_outcome mode e = Done (Ok tt) \/
   exists msg, setup_outcome mode e = Panicked msg /\
               fst (run_main mode e) = Panicked msg) /\
  (setup_outcome Release e = Done (Ok tt) <->
   env_resolve_ok e = true /\ env_spawn e <> None) /\
  (setup_outcome Debug e = Done (Ok tt) <-> env_stdout_error e = None).
Proof.
  destruct mode; run_env e;
    (split; [intros err H; discriminate H |]);
    (split; [ first [ left; reflexivity
                    | right; eexists; split; reflexivity ] |]);
    (split; [split; intros H; try discriminate H; try reflexivity;
             try (split; [reflexivity | discriminate]);
             destruct H as [H1 H2]; try discriminate H1; congruence |]);
    split; intros H; first [reflexivity | discriminate H].
Qed.

(** ** Further properties of [main] *)

(** A successful release startup performs, in this order: shell plugin
    registration, the plugin's state, sidecar resolution, the spawn, storing
    the child, the event loop and exit; the run ends normally. *)
Theorem release_success_effect_order (e : Env) (rx pid : nat)
  (Hres : env_resolve_ok e = true) (Hsp : env_spawn e = Some (rx, pid)) :
  main_trace Release e =
    [EvPluginInit "shell"; EvManage key_shell; EvResolveSidecar "backend";
     EvSpawn "backend"; EvManage key_child; EvEventLoopStart; EvExit] /\
  fst (run_main Release e) = Done tt.
Proof. run_env e; try discriminate Hres; try discriminate Hsp; split; reflexivity. Qed.

Lemma release_success_effect_order_witness :
  env_resolve_ok env_ok = true /\ env_spawn env_ok = Some (7, 4242) /\
  fst (run_main Release env_ok) = Done tt.
Proof.
  split; [reflexivity | split; [reflexivity |]].
  apply (release_success_effect_order env_ok 7 4242); reflexivity.
Defined.

(** A debug startup registers the shell plugin and attempts to print the
    instruction, and nothing else before; when the write succeeds it runs the
    event loop and exits normally, otherwise [println!]'s panic ends it. *)
Theorem debug_effect_order (e : Env) :
  main_trace Debug e =
    app [EvPluginInit "shell"; EvManage key_shell; EvPrintln dev_msg]
      (match env_stdout_error e with
       | None => [EvEventLoopStart; EvExit]
       | Some _ => []
       end) /\
  fst (run_main Debug e) = println_outcome tt e.
Proof. unfold println_outcome; run_env e; split; reflexivity. Qed.

(** A failed release startup (resolution or spawn failure) stores no child
    handle: the managed state holds only the shell plugin's state. *)
Theorem release_failure_stores_no_child (e : Env)
  (Hfail : env_resolve_ok e = false \/ env_spawn e = None) :
  st_managed (snd (run_main Release e)) = [(key_shell, MShell)] /\
  lookup_key key_child (st_managed (snd (run_main Release e))) = None.
Proof.
  run_env e; destruct Hfail as [H | H]; try discriminate H; split; reflexivity.
Qed.

Lemma release_failure_stores_no_child_witness :
  (env_resolve_ok env_spawn_refused = false \/ env_spawn env_spawn_refused = None) /\
  lookup_key key_child (st_managed (snd (run_main Release env_spawn_refused))) = None.
Proof.
  split; [right; reflexivity |].
  apply release_failure_stores_no_child; right; reflexivity.
Defined.

(** A debug run never stores a child handle. *)
Theorem debug_stores_no_child (e : Env) :
  st_managed (snd (run_main Debug e)) = [(key_shell, MShell)] /\
  lookup_key key_child (st_managed (snd (run_main Debug e))) = None.
Proof. run_env e; split; reflexivity. Qed.

(** In every run the shell plugin is registered and its state stored before
    [setup] does anything, and that state is still stored at the end. *)
Theorem shell_plugin_registered_first (mode : BuildMode) (e : Env) :
  firstn 2 (main_trace mode e) = [EvPluginInit "shell"; EvManage key_shell] /\
  lookup_key key_shell (st_managed (snd (run_main mode e))) = Some MShell.
Proof. destruct mode; run_env e; split; reflexivity. Qed.
